(** * A model of [tweetstream/streamclasses.py]

    [BaseStream] and its variants are modelled as an object record
    ([stream]) plus the Python generator returned by [__iter__] as an
    explicit program-counter ([gen]).  Everything outside the module (the
    HTTP library, the clock, the JSON decoder) is an environment: the
    outcomes of successive [requests.post] calls are queued in the object,
    the clock is a field, and [anyjson.deserialize] is a section variable. *)

From Stdlib Require Import String ZArith QArith List.
From stdpp Require Import base gmap strings.
Import ListNotations.
Open Scope string_scope.
Set Warnings "-register-all".

(** ** Python values and exceptions *)

(** Decoded JSON values, as [anyjson.deserialize] returns them. *)
Inductive json : Type :=
| JNull
| JBool (b : bool)
| JNum (n : Z)
| JStr (s : string)
| JArr (xs : list json)
| JObj (kvs : list (string * json)).

(** A value yielded by the generator: the raw line ([raw=True]) or a
    decoded structure. *)
Inductive tweet : Type :=
| Raw (line : string)
| Decoded (j : json).

(** Exceptions that can cross the boundary of the module.  The four
    reconnection kinds and [AuthenticationError] are defined in the
    package's [__init__.py] (not part of the sources): they are modelled,
    from the spec, as four distinct kinds none of which is a
    [socket.error] or a [requests.exceptions.HTTPError].
    [requests.exceptions.ConnectionError] is, in the [requests] library, a
    sibling of [HTTPError] under [RequestException]. *)
Inductive exn : Type :=
| AuthenticationError (msg : string)
| ReconnectImmediatelyError (msg : string)
| ReconnectLinearlyError (msg : string)
| ReconnectExponentiallyError (msg : string)
| HTTPError (msg : string)
| RequestsConnectionError (msg : string)
| SocketError (msg : string)
| TypeError
| ZeroDivisionError
| AttributeError
| StopIteration.

(** [except socket.error]: *)
Definition is_socket_error (e : exn) : bool :=
  match e with SocketError _ => true | _ => false end.

(** [except requests.exceptions.HTTPError]: *)
Definition is_http_error (e : exn) : bool :=
  match e with HTTPError _ => true | _ => false end.

(** [str(e)] *)
Definition exn_str (e : exn) : string :=
  match e with
  | AuthenticationError m | ReconnectImmediatelyError m
  | ReconnectLinearlyError m | ReconnectExponentiallyError m
  | HTTPError m | RequestsConnectionError m | SocketError m => m
  | _ => ""
  end.

(** The error taxonomy of the spec. *)
Definition in_taxonomy (e : exn) : bool :=
  match e with
  | AuthenticationError _ | ReconnectImmediatelyError _
  | ReconnectLinearlyError _ | ReconnectExponentiallyError _ => true
  | _ => false
  end.

(** Python's [needle in hay] on two strings: substring test. *)
Fixpoint str_in (needle hay : string) : bool :=
  String.prefix needle hay ||
  match hay with
  | EmptyString => false
  | String _ t => str_in needle t
  end.

(** Python's ['text' in x] on a decoded value: key membership for a dict,
    element equality for a list, substring for a string, and [TypeError]
    for numbers, booleans and [None]. *)
Definition py_in_json (k : string) (j : json) : option bool :=
  match j with
  | JObj kvs => Some (existsb (fun kv => String.eqb (fst kv) k) kvs)
  | JArr xs => Some (existsb (fun x => match x with
                                       | JStr s => String.eqb s k
                                       | _ => false end) xs)
  | JStr s => Some (str_in k s)
  | _ => None
  end.

Definition py_in_tweet (k : string) (t : tweet) : option bool :=
  match t with
  | Raw line => Some (str_in k line)
  | Decoded j => py_in_json k j
  end.

(** Python truthiness of an optional float attribute ([None] or [0.0] are
    false). *)
Definition truthy_time (t : option Q) : bool :=
  match t with
  | None => false
  | Some q => negb (Qeq_bool q 0)
  end.

(** [",".join(xs)] *)
Fixpoint join (sep : string) (xs : list string) : string :=
  match xs with
  | [] => ""
  | [x] => x
  | x :: rest => String.append x (String.append sep (join sep rest))
  end.

(** Decimal rendering used by [str(n)] for integers. *)
Fixpoint digits_aux (fuel : nat) (n : N) (acc : string) : string :=
  match fuel with
  | O => acc
  | S f =>
      let d := N.modulo n 10 in
      let acc' := String (Ascii.ascii_of_N (48 + d)) acc in
      if (n <? 10)%N then acc' else digits_aux f (N.div n 10) acc'
  end.

Definition N_to_string (n : N) : string := digits_aux (N.to_nat (N.size n) + 1) n "".

Definition Z_to_string (z : Z) : string :=
  match z with
  | Zneg p => String (Ascii.ascii_of_nat 45) (N_to_string (Npos p))
  | _ => N_to_string (Z.to_N z)
  end.

(** Elements of a [follow] list: user ids given as ints or strings. *)
Inductive pyval : Type :=
| PInt (z : Z)
| PStr (s : string).

(** [str(e)] *)
Definition py_str (v : pyval) : string :=
  match v with PInt z => Z_to_string z | PStr s => s end.

(** ** The environment: HTTP responses, requests and the clock *)

(** What [response.iter_lines()] produces: a line, or a [socket.error]
    raised by the underlying socket. *)
Inductive event : Type :=
| Line (s : string)
| SockErr (msg : string).

(** The outcome of one [requests.post] call: a response with a status and
    a body, or an exception raised by the library. *)
Inductive post_outcome : Type :=
| PostResponse (status : Z) (body : list event)
| PostRaises (e : exn).

(** The arguments [_init_conn] passes to [requests.post]; [req_timeout] is
    the [timeout=] keyword ([None] when it is not passed). *)
Record request : Type := mkRequest {
  req_url : string;
  req_stream : bool;
  req_data : option (gmap string string);
  req_timeout : option Q
}.

(** A response object: its status code and the identity of its body in
    the store of open bodies (two iterations of one response read the same
    underlying socket). *)
Record resp : Type := mkResp {
  status_code : Z;
  rid : nat
}.

Record env : Type := mkEnv {
  clock : Q;                          (* what [time.time()] returns *)
  net : list post_outcome;            (* outcomes of the next posts *)
  sent : list request;                (* requests issued, latest first *)
  bodies : gmap nat (list event);     (* unread part of each body *)
  next_rid : nat
}.

(** ** The stream object *)

(** The three subclasses and the base class itself; [FilterVariant]
    carries [_follow], [_locations] and [_track]. *)
Inductive variant : Type :=
| BaseVariant
| SampleVariant
| UserVariant
| FilterVariant (follow : option (list pyval)) (locations : option (list string))
                (track : option (list string)).

(** Attributes fixed by the constructor. *)
Record config : Type := mkConfig {
  consumer_key : string;
  consumer_secret : string;
  access_token : string;
  access_secret : string;
  raw_mode : bool;
  timeout : option Q;
  kind : variant;
  url : option string;
  user_agent : string;
  rate_period : Q
}.

(** The state of a generator object returned by [__iter__]: not started,
    suspended at the [yield] inside [for line in ...] over the body [rid],
    or finished. *)
Inductive gen : Type :=
| GNew
| GFor (rid : nat)
| GDone.

Record stream : Type := mkStream {
  cfg : config;
  iter : gen;                  (* self._iter *)
  connected : bool;
  response : option resp;
  starttime : option Q;
  count : Z;
  rate : Q;
  rate_ts : option Q;          (* self._rate_ts *)
  rate_cnt : Z;                (* self._rate_cnt *)
  world : env
}.

Definition set_iter (g : gen) (s : stream) : stream :=
  {| cfg := cfg s; iter := g; connected := connected s; response := response s;
     starttime := starttime s; count := count s; rate := rate s;
     rate_ts := rate_ts s; rate_cnt := rate_cnt s; world := world s |}.

Definition set_connected (b : bool) (s : stream) : stream :=
  {| cfg := cfg s; iter := iter s; connected := b; response := response s;
     starttime := starttime s; count := count s; rate := rate s;
     rate_ts := rate_ts s; rate_cnt := rate_cnt s; world := world s |}.

Definition set_response (r : option resp) (s : stream) : stream :=
  {| cfg := cfg s; iter := iter s; connected := connected s; response := r;
     starttime := starttime s; count := count s; rate := rate s;
     rate_ts := rate_ts s; rate_cnt := rate_cnt s; world := world s |}.

Definition set_times (st rt : option Q) (s : stream) : stream :=
  {| cfg := cfg s; iter := iter s; connected := connected s; response := response s;
     starttime := st; count := count s; rate := rate s;
     rate_ts := rt; rate_cnt := rate_cnt s; world := world s |}.

Definition set_rate (r : Q) (cnt : Z) (ts : option Q) (s : stream) : stream :=
  {| cfg := cfg s; iter := iter s; connected := connected s; response := response s;
     starttime := starttime s; count := count s; rate := r;
     rate_ts := ts; rate_cnt := cnt; world := world s |}.

Definition set_world (w : env) (s : stream) : stream :=
  {| cfg := cfg s; iter := iter s; connected := connected s; response := response s;
     starttime := starttime s; count := count s; rate := rate s;
     rate_ts := rate_ts s; rate_cnt := rate_cnt s; world := w |}.

(** [self.count += 1; self._rate_cnt += 1] *)
Definition bump_counts (s : stream) : stream :=
  {| cfg := cfg s; iter := iter s; connected := connected s; response := response s;
     starttime := starttime s; count := count s + 1; rate := rate s;
     rate_ts := rate_ts s; rate_cnt := rate_cnt s + 1; world := world s |}.

(** Store the unread rest of body [i]. *)
Definition set_body (i : nat) (rest : list event) (s : stream) : stream :=
  let w := world s in
  set_world (mkEnv (clock w) (net w) (sent w) (<[i := rest]> (bodies w)) (next_rid w)) s.

Definition body_of (i : nat) (s : stream) : list event :=
  default [] (bodies (world s) !! i).

(** [requests.post(...)]: the request is recorded and the next queued
    outcome is returned; a response gets a fresh body in the store.  An
    empty queue behaves as an unreachable host. *)
Definition post (req : request) (s : stream) : (exn + resp) * stream :=
  let w := world s in
  match net w with
  | [] => (inl (RequestsConnectionError "Max retries exceeded"),
           set_world (mkEnv (clock w) [] (req :: sent w) (bodies w) (next_rid w)) s)
  | PostRaises e :: more =>
      (inl e, set_world (mkEnv (clock w) more (req :: sent w) (bodies w) (next_rid w)) s)
  | PostResponse st body :: more =>
      let i := next_rid w in
      (inr (mkResp st i),
       set_world (mkEnv (clock w) more (req :: sent w) (<[i := body]> (bodies w)) (S i)) s)
  end.

(** ** [FilterStream._get_post_data] and [BaseStream._get_post_data] *)

(** Python truthiness of an optional list ([None] and [[]] are false). *)
Definition truthy_list {A} (xs : option (list A)) : bool :=
  match xs with Some (_ :: _) => true | _ => false end.

Definition filter_post_data (follow : option (list pyval))
    (locations track : option (list string)) : gmap string string :=
  let postdata : gmap string string := ∅ in
  let postdata := if truthy_list follow
                  then <["follow" := join "," (map py_str (default [] follow))]> postdata
                  else postdata in
  let postdata := if truthy_list locations
                  then <["locations" := join "," (default [] locations)]> postdata
                  else postdata in
  let postdata := if truthy_list track
                  then <["track" := join "," (default [] track)]> postdata
                  else postdata in
  postdata.

Definition get_post_data (v : variant) : option (gmap string string) :=
  match v with
  | FilterVariant f l t => Some (filter_post_data f l t)
  | _ => None
  end.

(** The class attribute [url] of each class ([BaseStream] has none). *)
Definition class_url (v : variant) : option string :=
  match v with
  | BaseVariant => None
  | SampleVariant => Some "https://stream.twitter.com/1/statuses/sample.json"
  | UserVariant => Some "https://userstream.twitter.com/1.1/user.json"
  | FilterVariant _ _ _ => Some "https://stream.twitter.com/1.1/statuses/filter.json"
  end.

(** A call that returns a value or raises. *)
Inductive result (A : Type) : Type :=
| Ok (a : A)
| Exc (e : exn).
Arguments Ok {A} a.
Arguments Exc {A} e.

Section StreamClasses.

(** [anyjson.deserialize]: [None] when it raises [ValueError]. *)
Variable deserialize : string -> option json.

(** ** [__init__] *)

Definition make_stream (USER_AGENT : string) (v : variant)
    (ck cs at_ as_ : string) (catchup : option Z) (raw : bool)
    (timeout_ : option Q) (url_ : option string) (w : env) : stream :=
  let cfg0 := mkConfig ck cs at_ as_ raw timeout_ v
                (match url_ with
                 | Some u => if String.eqb u "" then class_url v else Some u
                 | None => class_url v
                 end)
                USER_AGENT 10 in
  {| cfg := cfg0; iter := GNew; connected := false; response := None;
     starttime := None; count := 0; rate := 0; rate_ts := None; rate_cnt := 0;
     world := w |}.

(** ** [_init_conn] *)

Definition init_conn (s : stream) : result unit * stream :=
  match url (cfg s) with
  | None => (Exc AttributeError, s)
  | Some u =>
      let req := mkRequest u true (get_post_data (kind (cfg s))) None in
      let '(o, s1) := post req s in
      match o with
      | inl e =>
          if is_http_error e
          then (Exc (ReconnectExponentiallyError (exn_str e)), s1)
          else (Exc e, s1)
      | inr r =>
          let s2 := set_response (Some r) s1 in
          if Z.eqb (status_code r) 401
          then (Exc (AuthenticationError "Could not authenticate with Twitter"), s2)
          else if Z.eqb (status_code r) 404
          then (Exc (ReconnectExponentiallyError
                       (String.append u (String.append ": " "<Response [404]>"))), s2)
          else
            let s3 := set_connected true s2 in
            let now := clock (world s3) in
            let st := if truthy_time (starttime s3) then starttime s3 else Some now in
            let rt := if truthy_time (rate_ts s3) then rate_ts s3 else Some now in
            (Ok tt, set_times st rt s3)
      end
  end.

(** ** [_update_rate] (both [time.time()] calls read [clock]) *)

Definition update_rate (s : stream) : result unit * stream :=
  match rate_ts s with
  | None => (Exc TypeError, s)            (* time.time() - None *)
  | Some ts =>
      let now := clock (world s) in
      let rate_time := (now - ts)%Q in
      if negb (truthy_time (rate_ts s)) || negb (Qle_bool rate_time (rate_period (cfg s)))
      then if Qeq_bool rate_time 0 then (Exc ZeroDivisionError, s)
           else (Ok tt, set_rate (inject_Z (rate_cnt s) / rate_time)%Q 0%Z (Some now) s)
      else (Ok tt, s)
  end.

(** ** [close], [__enter__], [__exit__] *)

Definition close (s : stream) : stream := set_connected false s.

Definition enter (s : stream) : stream * stream := (s, s).

Definition exit (s : stream) : bool * stream := (false, close s).

(** ** The generator [__iter__] *)

(** What one resumption of the generator produces: a yielded record, an
    exception leaving the generator, or no answer within the fuel (the
    [while True] loop may spin forever on an exhausted body). *)
Inductive gstep : Type :=
| YieldV (t : tweet)
| RaiseV (e : exn)
| Diverge.

(** Where execution resumes: the top of [while True], or the [for] loop
    over body [rid]. *)
Inductive pc : Type :=
| AtTop
| InFor (rid : nat).

(** An exception raised inside the [try] goes through
    [except socket.error, e: raise ReconnectImmediatelyError(...)]. *)
Definition in_try (e : exn) : exn :=
  if is_socket_error e
  then ReconnectImmediatelyError (String.append "Server disconnected: " (exn_str e))
  else e.

(** Decode one non-empty line: [tweet = line] in raw mode, else
    [anyjson.deserialize(line)], closing the stream on [ValueError]. *)
Definition decode_line (l : string) (s : stream) : result tweet * stream :=
  if raw_mode (cfg s) then (Ok (Raw l), s)
  else match deserialize l with
       | Some j => (Ok (Decoded j), s)
       | None => (Exc (ReconnectImmediatelyError (String.append "Invalid data: " l)),
                  close s)
       end.

Fixpoint resume (fuel : nat) (p : pc) (s : stream) : gstep * gen * stream :=
  match fuel with
  | O => (Diverge, GDone, s)
  | S f =>
      match p with
      | AtTop =>
          let '(o, s1) := if connected s then (Ok tt, s) else init_conn s in
          match o with
          | Exc e => (RaiseV (in_try e), GDone, s1)
          | Ok _ =>
              match response s1 with
              | None => (RaiseV (in_try AttributeError), GDone, s1)
              | Some r => resume f (InFor (rid r)) s1
              end
          end
      | InFor i =>
          match body_of i s with
          | [] => resume f AtTop s
          | SockErr m :: rest =>
              (RaiseV (in_try (SocketError m)), GDone, set_body i rest s)
          | Line l :: rest =>
              let s1 := set_body i rest s in
              if String.eqb l "" then resume f (InFor i) s1
              else
                let '(o, s2) := decode_line l s1 in
                match o with
                | Exc e => (RaiseV (in_try e), GDone, s2)
                | Ok t =>
                    match py_in_tweet "text" t with
                    | None => (RaiseV (in_try TypeError), GDone, s2)
                    | Some b =>
                        (YieldV t, GFor i, if b then bump_counts s2 else s2)
                    end
                end
          end
      end
  end.

(** [g.next()] on a generator object [g] of this stream. *)
Definition gen_next (fuel : nat) (g : gen) (s : stream) : gstep * gen * stream :=
  match g with
  | GDone => (RaiseV StopIteration, GDone, s)
  | GNew => resume fuel AtTop s
  | GFor i => resume fuel (InFor i) s
  end.

(** [BaseStream.next]: [self._iter.next()]. *)
Definition next (fuel : nat) (s : stream) : gstep * stream :=
  let '(o, g, s1) := gen_next fuel (iter s) s in
  (o, set_iter g s1).

(** [iter(stream)] calls [__iter__] again: a fresh generator over the same
    object. *)
Definition py_iter (s : stream) : gen := GNew.

End StreamClasses.

(** ** Concrete inputs *)

Definition dq : string := String (Ascii.ascii_of_nat 34) "".

(** The line [{"text": "hi"}]. *)
Definition text_line : string :=
  String.append "{" (String.append dq (String.append "text" (String.append dq
    (String.append ": " (String.append dq (String.append "hi" (String.append dq "}"))))))).

(** The line [{"id": 1}]. *)
Definition id_line : string :=
  String.append "{" (String.append dq (String.append "id" (String.append dq ": 1}"))).

(** A decoder that agrees with [json.loads] on the lines used below
    ([text_line], [id_line], [5]) and rejects every other line, as
    [json.loads] rejects the malformed line [{bad]. *)
Definition sample_deserialize (l : string) : option json :=
  if String.eqb l text_line then Some (JObj [("text", JStr "hi")])
  else if String.eqb l id_line then Some (JObj [("id", JNum 1)])
  else if String.eqb l "5" then Some (JNum 5)
  else None.

Definition sample_env (outcomes : list post_outcome) : env :=
  mkEnv 100 outcomes [] ∅ 0.

Definition sample_stream (raw : bool) (outcomes : list post_outcome) : stream :=
  make_stream "TweetStream" SampleVariant "ck" "cs" "at" "as" None raw None None
    (sample_env outcomes).

(** ** Reachable objects (used for the lifetime invariant) *)

(** The operations a client can perform on a stream object: [next()],
    [next()] on another generator obtained with [iter()], [_init_conn()],
    [close()], [__enter__], [__exit__]; and the environment moving (the
    clock advancing, the network changing). *)
Inductive op_step (deserialize : string -> option json) : stream -> stream -> Prop :=
| StepNext fuel s : op_step deserialize s (snd (next deserialize fuel s))
| StepIterNext fuel g s :
    op_step deserialize s (snd (gen_next deserialize fuel g s))
| StepConnect s : op_step deserialize s (snd (init_conn s))
| StepClose s : op_step deserialize s (close s)
| StepEnter s : op_step deserialize s (snd (enter s))
| StepExit s : op_step deserialize s (snd (exit s))
| StepEnv s w : op_step deserialize s (set_world w s).

Inductive reachable (deserialize : string -> option json) : stream -> Prop :=
| ReachInit ua v ck cs at_ as_ c raw t u w :
    reachable deserialize (make_stream ua v ck cs at_ as_ c raw t u w)
| ReachStep s s' :
    reachable deserialize s -> op_step deserialize s s' -> reachable deserialize s'.

(** ** Basic facts about the setters *)

Lemma body_of_set_body (i : nat) (rest : list event) (s : stream) :
  body_of i (set_body i rest s) = rest.
Proof. unfold body_of, set_body. simpl. by rewrite lookup_insert_eq. Qed.

Lemma resume_line (deserialize : string -> option json) (f i : nat) (s : stream)
    (l : string) (rest : list event) :
  body_of i s = Line l :: rest -> l <> "" ->
  resume deserialize (S f) (InFor i) s =
  (let s1 := set_body i rest s in
   let '(o, s2) := decode_line deserialize l s1 in
   match o with
   | Exc e => (RaiseV (in_try e), GDone, s2)
   | Ok t =>
       match py_in_tweet "text" t with
       | None => (RaiseV (in_try TypeError), GDone, s2)
       | Some b => (YieldV t, GFor i, if b then bump_counts s2 else s2)
       end
   end).
Proof.
  intros Hb Hl. simpl. rewrite Hb.
  destruct (String.eqb_spec l "") as [E|E]; [contradiction|reflexivity].
Qed.

Lemma next_GFor (deserialize : string -> option json) (fuel i : nat) (s : stream) :
  iter s = GFor i ->
  next deserialize fuel s =
  (let '(o, g, s1) := resume deserialize fuel (InFor i) s in (o, set_iter g s1)).
Proof. intros Hit. unfold next. by rewrite Hit. Qed.

(** Once connected, the generator issues no request. *)
Lemma resume_sent_connected (deserialize : string -> option json) (f : nat) :
  forall (p : pc) (s : stream), connected s = true ->
  sent (world (snd (resume deserialize f p s))) = sent (world s).
Proof.
  induction f as [|f IH]; intros p s Hc; [reflexivity|].
  destruct p as [|i]; simpl.
  - rewrite Hc. destruct (response s) as [r|]; [|reflexivity].
    by apply IH.
  - destruct (body_of i s) as [|[l|m] rest] eqn:Hb.
    + by apply IH.
    + destruct (String.eqb l ""); [rewrite IH by exact Hc; reflexivity|].
      unfold decode_line; simpl.
      destruct (raw_mode (cfg s)); simpl.
      * destruct (str_in "text" l); reflexivity.
      * destruct (deserialize l) as [j|]; simpl; [|reflexivity].
        destruct (py_in_json "text" j) as [[]|]; reflexivity.
    + reflexivity.
Qed.

(** [_init_conn] sends exactly one request when the object has a URL. *)
Lemma init_conn_sends (s : stream) (u : string) :
  url (cfg s) = Some u ->
  exists req, sent (world (snd (init_conn s))) = req :: sent (world s) /\
              req_timeout req = None /\ req_url req = u.
Proof.
  intros Hu. unfold init_conn. rewrite Hu. unfold post.
  destruct (net (world s)) as [|[st body|e] more]; simpl.
  - eexists; repeat split.
  - destruct (Z.eqb st 401); [eexists; repeat split|].
    destruct (Z.eqb st 404); eexists; repeat split.
  - destruct (is_http_error e); eexists; repeat split.
Qed.

(** A generator that starts on a closed object first calls [_init_conn]. *)
Lemma fresh_gen_connects (deserialize : string -> option json) (f : nat)
    (s : stream) (u : string) :
  connected s = false -> url (cfg s) = Some u ->
  exists req, sent (world (snd (gen_next deserialize (S f) GNew s))) =
              req :: sent (world s).
Proof.
  intros Hc Hu. simpl. rewrite Hc.
  destruct (init_conn_sends s u Hu) as (req & Hs & _).
  exists req. destruct (init_conn s) as [[[]|e] s1] eqn:Hi; simpl in *.
  - assert (Hc1 : connected s1 = true).
    { revert Hi. unfold init_conn. rewrite Hu.
      destruct (post _ s) as [[e|r] s2].
      - destruct (is_http_error e); discriminate.
      - destruct (Z.eqb (status_code r) 401); [discriminate|].
        destruct (Z.eqb (status_code r) 404); [discriminate|].
        intros H. injection H as <-. reflexivity. }
    destruct (response s1) as [r|]; simpl; [|exact Hs].
    rewrite resume_sent_connected by exact Hc1. exact Hs.
  - exact Hs.
Qed.

(** The request [_init_conn] records. *)
Lemma init_conn_sent_request (s : stream) (u : string) :
  url (cfg s) = Some u ->
  sent (world (snd (init_conn s))) =
    mkRequest u true (get_post_data (kind (cfg s))) None :: sent (world s).
Proof.
  intros Hu. unfold init_conn. rewrite Hu. unfold post.
  destruct (net (world s)) as [|[st body|e] more]; simpl.
  - reflexivity.
  - destruct (Z.eqb st 401); [reflexivity|].
    destruct (Z.eqb st 404); reflexivity.
  - destruct (is_http_error e); reflexivity.
Qed.

(** A generator that starts on a closed object sends what [_init_conn]
    sends, and nothing more. *)
Lemma fresh_gen_sent (deserialize : string -> option json) (f : nat) (s : stream) :
  connected s = false ->
  sent (world (snd (gen_next deserialize (S f) GNew s))) = sent (world (snd (init_conn s))).
Proof.
  intros Hc. simpl. rewrite Hc.
  destruct (init_conn s) as [[[]|e] s1] eqn:Hi; simpl; [|reflexivity].
  assert (Hc1 : connected s1 = true).
  { revert Hi. unfold init_conn.
    destruct (url (cfg s)) as [u|]; [|discriminate].
    destruct (post _ s) as [[e|r] s2].
    - destruct (is_http_error e); discriminate.
    - destruct (Z.eqb (status_code r) 401); [discriminate|].
      destruct (Z.eqb (status_code r) 404); [discriminate|].
      intros H. injection H as <-. reflexivity. }
  destruct (response s1) as [r|]; simpl; [|reflexivity].
  by rewrite resume_sent_connected by exact Hc1.
Qed.

(** Rewriting a body twice keeps the last rest. *)
Lemma set_body_set_body (i : nat) (a b : list event) (s : stream) :
  set_body i a (set_body i b s) = set_body i a s.
Proof. unfold set_body. simpl. by rewrite insert_insert_eq. Qed.

(** Writing back the body a stream already has changes nothing. *)
Lemma set_body_same (i : nat) (b : list event) (s : stream) :
  bodies (world s) !! i = Some b -> set_body i b s = s.
Proof.
  intros H. destruct s as [c g cn r st cnt rt rts rc [ck n snt bs nr]].
  unfold set_body. simpl in *. by rewrite insert_id.
Qed.

(** Empty lines are skipped one unit of fuel each. *)
Lemma resume_skip_empty (deserialize : string -> option json) (i f : nat) (k : nat) :
  forall (s : stream) (rest : list event),
  bodies (world s) !! i = Some ((repeat (Line "") k ++ rest)%list) ->
  resume deserialize (k + f) (InFor i) s =
  resume deserialize f (InFor i) (set_body i rest s).
Proof.
  induction k as [|k IH]; intros s rest Hb.
  - simpl in Hb. by rewrite (set_body_same i rest s Hb).
  - simpl. unfold body_of at 1. rewrite Hb. simpl.
    rewrite (IH (set_body i ((repeat (Line "") k ++ rest)%list) s) rest).
    + by rewrite set_body_set_body.
    + simpl. by rewrite lookup_insert_eq.
Qed.


(** ** C9: the Filter payload *)

(** C9. The Filter variant's payload has the key [follow], [locations] or
    [track] exactly when the corresponding collection is non-empty (not
    [None], not empty), with the comma-joined value, and no other key; for
    [track=["foo","bar"]], [follow=[]], [locations=None] it is exactly
    [{"track": "foo,bar"}]. *)
Theorem C9_filter_payload_keys :
  (forall (f : option (list pyval)) (l t : option (list string)),
     exists pd : gmap string string,
       get_post_data (FilterVariant f l t) = Some pd /\
       pd !! "follow" = (if truthy_list f
                         then Some (join "," (map py_str (default [] f))) else None) /\
       pd !! "locations" = (if truthy_list l then Some (join "," (default [] l)) else None) /\
       pd !! "track" = (if truthy_list t then Some (join "," (default [] t)) else None) /\
       dom pd ⊆ {[ "follow"; "locations"; "track" ]}) /\
  get_post_data (FilterVariant (Some []) None (Some ["foo"; "bar"])) =
    Some (<["track" := "foo,bar"]> ∅).
Proof.
  split; [|reflexivity].
  intros f l t. eexists. split; [reflexivity|].
  unfold filter_post_data.
  destruct (truthy_list f), (truthy_list l), (truthy_list t);
    repeat split; simplify_map_eq; try reflexivity;
    rewrite ?dom_insert_L, ?dom_empty_L; set_solver.
Qed.

(** ** C10: counting in raw mode *)

(** C10. In raw mode, a pulled non-empty line is returned as is, and
    [count] and [_rate_cnt] grow by one exactly when the raw line contains
    the substring [text], whatever its structure. *)
Theorem C10_raw_mode_substring_count (deserialize : string -> option json)
    (fuel i : nat) (s : stream) (l : string) (rest : list event) :
  raw_mode (cfg s) = true -> iter s = GFor i ->
  body_of i s = Line l :: rest -> l <> "" ->
  let '(o, s') := next deserialize (S fuel) s in
  o = YieldV (Raw l) /\
  count s' = (count s + (if str_in "text" l then 1 else 0))%Z /\
  rate_cnt s' = (rate_cnt s + (if str_in "text" l then 1 else 0))%Z /\
  body_of i s' = rest.
Proof.
  intros Hraw Hit Hb Hl. rewrite (next_GFor _ _ _ _ Hit).
  rewrite (resume_line _ _ _ _ _ _ Hb Hl). unfold decode_line. simpl.
  rewrite Hraw. simpl.
  destruct (str_in "text" l); simpl; repeat split; try lia;
    unfold body_of; simpl; by rewrite lookup_insert_eq.
Qed.

(** ** C7: counting decoded records *)

(** C7 (as amended). In non-raw mode, a pulled non-empty line that
    decodes to a JSON object is returned decoded and consumed; [count]
    grows by one exactly when the object has the key [text]. *)
Theorem C7_object_count_iff_text_key (deserialize : string -> option json)
    (fuel i : nat) (s : stream) (l : string) (rest : list event)
    (kvs : list (string * json)) :
  raw_mode (cfg s) = false -> iter s = GFor i ->
  body_of i s = Line l :: rest -> l <> "" ->
  deserialize l = Some (JObj kvs) ->
  let '(o, s') := next deserialize (S fuel) s in
  o = YieldV (Decoded (JObj kvs)) /\
  count s' = (count s + (if existsb (fun kv => String.eqb (fst kv) "text") kvs
                        then 1 else 0))%Z /\
  body_of i s' = rest /\ iter s' = GFor i.
Proof.
  intros Hraw Hit Hb Hl Hd. rewrite (next_GFor _ _ _ _ Hit).
  rewrite (resume_line _ _ _ _ _ _ Hb Hl). unfold decode_line. simpl.
  rewrite Hraw, Hd. simpl.
  destruct (existsb _ kvs); simpl; repeat split; try lia;
    unfold body_of; simpl; by rewrite lookup_insert_eq.
Qed.

(** ** C1: a line that is not JSON *)

(** C1 (as amended). In non-raw mode, a non-empty line that fails to
    decode closes the stream ([connected] false) and [next()] raises
    [ReconnectImmediatelyError("Invalid data: " + line)]; the generator
    behind [next()] is then finished: every later [next()] raises
    [StopIteration] and changes nothing (no reconnection), while a fresh
    generator from [iter()] starts over by calling [_init_conn]. *)
Theorem C1_invalid_line_closes_and_ends (deserialize : string -> option json)
    (fuel i : nat) (s : stream) (l u : string) (rest : list event) :
  raw_mode (cfg s) = false -> iter s = GFor i ->
  body_of i s = Line l :: rest -> l <> "" -> deserialize l = None ->
  url (cfg s) = Some u ->
  let '(o, s') := next deserialize (S fuel) s in
  o = RaiseV (ReconnectImmediatelyError (String.append "Invalid data: " l)) /\
  connected s' = false /\
  (forall fuel', next deserialize fuel' s' = (RaiseV StopIteration, s')) /\
  (forall fuel', exists req,
     sent (world (snd (gen_next deserialize (S fuel') (py_iter s') s'))) =
     req :: sent (world s')).
Proof.
  intros Hraw Hit Hb Hl Hd Hu. rewrite (next_GFor _ _ _ _ Hit).
  rewrite (resume_line _ _ _ _ _ _ Hb Hl). unfold decode_line. simpl.
  rewrite Hraw, Hd. simpl. repeat split.
  intros fuel'.
  exact (fresh_gen_connects deserialize fuel' (set_iter GDone (close (set_body i rest s))) u eq_refl Hu).
Qed.

(** ** C3: a socket error while reading *)

(** C3 (evaluation). A [socket.error] raised by the body while the
    generator is in its [for] loop surfaces as [ReconnectImmediatelyError]
    but leaves [connected] as it was: no [close()] is made on this path. *)
Theorem C3_socket_error_keeps_connected (deserialize : string -> option json)
    (fuel i : nat) (s : stream) (m : string) (rest : list event) :
  iter s = GFor i -> body_of i s = SockErr m :: rest ->
  let '(o, s') := next deserialize (S fuel) s in
  o = RaiseV (ReconnectImmediatelyError (String.append "Server disconnected: " m)) /\
  connected s' = connected s.
Proof.
  intros Hit Hb. unfold next. rewrite Hit. simpl. rewrite Hb. simpl.
  split; reflexivity.
Qed.

(** ** C2: failures of [requests.post] *)

(** C2 (evaluation). When [requests.post] raises
    [requests.exceptions.ConnectionError] (host unreachable, connection
    refused), [except requests.exceptions.HTTPError] does not catch it: the
    first [next()] of a fresh object raises it unchanged, and it is none of
    the four kinds of the taxonomy. *)
Theorem C2_connection_error_unclassified (deserialize : string -> option json)
    (fuel : nat) (s : stream) (u m : string) (more : list post_outcome) :
  url (cfg s) = Some u -> connected s = false -> iter s = GNew ->
  net (world s) = PostRaises (RequestsConnectionError m) :: more ->
  fst (next deserialize (S fuel) s) = RaiseV (RequestsConnectionError m) /\
  in_taxonomy (RequestsConnectionError m) = false.
Proof.
  intros Hu Hc Hit Hn. split; [|reflexivity].
  unfold next. rewrite Hit. simpl. rewrite Hc.
  unfold init_conn. rewrite Hu. unfold post. rewrite Hn. reflexivity.
Qed.

(** ** C4: the socket timeout *)

(** C4 (evaluation). Whatever timeout the object was built with, the
    request [_init_conn] issues passes no [timeout=]. *)
Theorem C4_timeout_not_passed (s : stream) (u : string) (t : Q) :
  url (cfg s) = Some u -> timeout (cfg s) = Some t ->
  exists req, sent (world (snd (init_conn s))) = req :: sent (world s) /\
              req_timeout req = None.
Proof.
  intros Hu _. destruct (init_conn_sends s u Hu) as (req & H1 & H2 & _).
  exists req. split; assumption.
Qed.

(** ** C5: [_update_rate] before any window start *)

(** C5 (evaluation). With no window start recorded ([_rate_ts] is
    [None], as after construction), [_update_rate] raises [TypeError]
    ([time.time() - None]) before its [not self._rate_ts] test is reached,
    and changes nothing. *)
Theorem C5_update_rate_no_window_fails (s : stream) :
  rate_ts s = None -> update_rate s = (Exc TypeError, s).
Proof. intros H. unfold update_rate. by rewrite H. Qed.

(** ** C8: status 401 and 404 *)

(** C8. On a response with status 401 [_init_conn] raises
    [AuthenticationError], on status 404 [ReconnectExponentiallyError];
    [connected] stays false in both cases. *)
Theorem C8_status_401_404 (s : stream) (u : string) (st : Z)
    (body : list event) (more : list post_outcome) :
  url (cfg s) = Some u -> connected s = false ->
  net (world s) = PostResponse st body :: more ->
  (st = 401%Z ->
     fst (init_conn s) = Exc (AuthenticationError "Could not authenticate with Twitter") /\
     connected (snd (init_conn s)) = false) /\
  (st = 404%Z ->
     (exists msg, fst (init_conn s) = Exc (ReconnectExponentiallyError msg)) /\
     connected (snd (init_conn s)) = false).
Proof.
  intros Hu Hc Hn. unfold init_conn. rewrite Hu. unfold post. rewrite Hn. simpl.
  split; intros ->; simpl.
  - split; [reflexivity|exact Hc].
  - split; [eexists; reflexivity|exact Hc].
Qed.

(** ** C6: the rate attribute over the object's lifetime *)

(** [rate] is untouched and [_rate_cnt] moves with [count], never down. *)
Definition counters_follow (s s' : stream) : Prop :=
  rate s' = rate s /\
  (rate_cnt s' - count s' = rate_cnt s - count s)%Z /\
  (rate_cnt s <= rate_cnt s')%Z.

Lemma counters_follow_refl (s : stream) : counters_follow s s.
Proof. unfold counters_follow. repeat split; lia. Qed.

Lemma counters_follow_trans (s1 s2 s3 : stream) :
  counters_follow s1 s2 -> counters_follow s2 s3 -> counters_follow s1 s3.
Proof. unfold counters_follow. intros (A & B & C) (D & E & F). repeat split; congruence || lia. Qed.

Lemma counters_follow_bump (s : stream) : counters_follow s (bump_counts s).
Proof. unfold counters_follow. simpl. repeat split; lia. Qed.

(** Setters that leave the three counters alone. *)
Ltac follow_tac := unfold counters_follow; simpl; repeat split; lia.

Lemma init_conn_counters (s : stream) : counters_follow s (snd (init_conn s)).
Proof.
  unfold init_conn. destruct (url (cfg s)) as [u|]; [|follow_tac].
  unfold post. destruct (net (world s)) as [|[st body|e] more]; simpl.
  - follow_tac.
  - destruct (Z.eqb st 401); [follow_tac|].
    destruct (Z.eqb st 404); follow_tac.
  - destruct (is_http_error e); follow_tac.
Qed.

Lemma resume_counters (deserialize : string -> option json) (f : nat) :
  forall (p : pc) (s : stream), counters_follow s (snd (resume deserialize f p s)).
Proof.
  induction f as [|f IH]; intros p s; [follow_tac|].
  destruct p as [|i]; simpl.
  - destruct (connected s).
    + destruct (response s) as [r|]; [apply IH|follow_tac].
    + pose proof (init_conn_counters s) as Hi.
      destruct (init_conn s) as [[[]|e] s1]; simpl in *; [|exact Hi].
      destruct (response s1) as [r|]; [|exact Hi].
      eapply counters_follow_trans; [exact Hi|apply IH].
  - destruct (body_of i s) as [|[l|m] rest].
    + apply IH.
    + destruct (String.eqb l "").
      * eapply counters_follow_trans; [|apply IH]. follow_tac.
      * unfold decode_line. simpl. destruct (raw_mode (cfg s)); simpl.
        -- destruct (str_in "text" l); simpl; [|follow_tac].
           apply (counters_follow_bump (set_body i rest s)).
        -- destruct (deserialize l) as [j|]; simpl; [|follow_tac].
           destruct (py_in_json "text" j) as [[]|]; simpl;
             [apply (counters_follow_bump (set_body i rest s))|
              follow_tac|follow_tac].
    + follow_tac.
Qed.

Lemma op_step_counters (deserialize : string -> option json) (s s' : stream) :
  op_step deserialize s s' -> counters_follow s s'.
Proof.
  intros Hs. destruct Hs as [fuel s|fuel g s|s|s|s|s|s w].
  - unfold next. pose proof (resume_counters deserialize fuel) as Hr.
    destruct (iter s) as [|i|]; simpl;
      [specialize (Hr AtTop s)|specialize (Hr (InFor i) s)|follow_tac];
      destruct (resume _ _ _ _) as [[o g] s1]; exact Hr.
  - destruct g as [|i|]; simpl; [apply resume_counters|apply resume_counters|].
    follow_tac.
  - apply init_conn_counters.
  - follow_tac.
  - follow_tac.
  - follow_tac.
  - follow_tac.
Qed.

(** Pulling [k] lines [text] in raw mode from a suspended generator. *)
Lemma pull_text_lines (deserialize : string -> option json) (i : nat) (k : nat) :
  forall s : stream,
  reachable deserialize s -> iter s = GFor i -> raw_mode (cfg s) = true ->
  body_of i s = repeat (Line "text") k ->
  exists s', reachable deserialize s' /\
             rate_cnt s' = (rate_cnt s + Z.of_nat k)%Z /\ rate s' = rate s.
Proof.
  induction k as [|k IH]; intros s Hr Hit Hraw Hb.
  - exists s. split; [exact Hr|]. split; [simpl; lia|reflexivity].
  - set (s1 := snd (next deserialize 1 s)).
    assert (Hs1 : s1 = set_iter (GFor i)
                         (bump_counts (set_body i (repeat (Line "text") k) s))).
    { unfold s1. rewrite (next_GFor _ _ _ _ Hit).
      rewrite (resume_line _ _ _ _ _ _ Hb) by discriminate.
      unfold decode_line. simpl. by rewrite Hraw. }
    destruct (IH s1) as (s2 & Hr2 & Hc2 & Hq2).
    + eapply ReachStep; [exact Hr|apply StepNext].
    + by rewrite Hs1.
    + by rewrite Hs1.
    + rewrite Hs1. unfold body_of. simpl. by rewrite lookup_insert_eq.
    + exists s2. split; [exact Hr2|]. rewrite Hc2, Hq2, Hs1. simpl. split; [lia|reflexivity].
Qed.

(** A raw-mode Sample stream whose first response is the line [x]
    followed by [n] lines [text]. *)
Definition text_stream (n : nat) : stream :=
  make_stream "TweetStream" SampleVariant "ck" "cs" "at" "as" None true None None
    (mkEnv 0 [PostResponse 200 (Line "x" :: repeat (Line "text") n)] [] ∅ 0).

(** C6. No operation of the object ever assigns [rate]: in every object
    reachable from construction, [rate] is still [0] and [_rate_cnt]
    equals [count]; no operation lowers [_rate_cnt]; and pulling records
    drives [_rate_cnt] to any value. *)
Theorem C6_rate_stays_zero (deserialize : string -> option json) :
  (forall s : stream, reachable deserialize s -> rate s = 0%Q /\ rate_cnt s = count s) /\
  (forall s s' : stream, op_step deserialize s s' ->
     rate s' = rate s /\ (rate_cnt s <= rate_cnt s')%Z) /\
  (forall n : nat, exists s : stream,
     reachable deserialize s /\ rate s = 0%Q /\ rate_cnt s = Z.of_nat n).
Proof.
  split; [|split].
  - intros s Hr. induction Hr as [ua v ck cs at_ as_ c raw t u w|s s' Hr IH Hs].
    + split; reflexivity.
    + destruct (op_step_counters _ _ _ Hs) as (E1 & E2 & _).
      destruct IH as [IH1 IH2]. split; [congruence|lia].
  - intros s s' Hs. destruct (op_step_counters _ _ _ Hs) as (E1 & _ & E3). split; assumption.
  - intros n.
    assert (Hr0 : reachable deserialize (text_stream n)) by apply ReachInit.
    set (s1 := snd (next deserialize 2 (text_stream n))).
    assert (Hr1 : reachable deserialize s1) by (eapply ReachStep; [exact Hr0|apply StepNext]).
    destruct (pull_text_lines deserialize 0 n s1 Hr1) as (s2 & Hr2 & Hc2 & Hq2).
    + reflexivity.
    + reflexivity.
    + reflexivity.
    + exists s2. split; [exact Hr2|]. rewrite Hc2, Hq2. split; reflexivity.
Qed.

(** ** Concrete runs: witnesses and counterexamples *)

Definition sample_url : string := "https://stream.twitter.com/1/statuses/sample.json".

(** Raw mode, suspended after yielding the line [a], before [some text]. *)
Definition raw_suspended : stream :=
  snd (next sample_deserialize 2
         (sample_stream true [PostResponse 200 [Line "a"; Line "some text"]])).

(** Non-raw mode, suspended after the first record, before [{"id": 1}],
    then [5] (valid JSON, not an object). *)
Definition json_suspended : stream :=
  snd (next sample_deserialize 2
         (sample_stream false [PostResponse 200 [Line text_line; Line id_line; Line "5"]])).

(** Non-raw mode, suspended before the malformed line [{bad]; a second
    response with a record is queued. *)
Definition bad_suspended : stream :=
  snd (next sample_deserialize 2
         (sample_stream false [PostResponse 200 [Line text_line; Line "{bad"];
                               PostResponse 200 [Line text_line]])).

(** Suspended before a [socket.error]. *)
Definition sock_suspended : stream :=
  snd (next sample_deserialize 2
         (sample_stream false [PostResponse 200 [Line text_line;
                                                 SockErr "Connection reset by peer"]])).

Lemma C10_witness :
  let '(o, s') := next sample_deserialize 1 raw_suspended in
  o = YieldV (Raw "some text") /\
  count s' = (count raw_suspended + (if str_in "text" "some text" then 1 else 0))%Z /\
  rate_cnt s' = (rate_cnt raw_suspended + (if str_in "text" "some text" then 1 else 0))%Z /\
  body_of 0 s' = [].
Proof.
  apply (C10_raw_mode_substring_count sample_deserialize 0 0 raw_suspended "some text" []);
    [reflexivity|reflexivity|reflexivity|discriminate].
Defined.

Lemma C7_witness :
  let '(o, s') := next sample_deserialize 1 json_suspended in
  o = YieldV (Decoded (JObj [("id", JNum 1)])) /\
  count s' = (count json_suspended +
              (if existsb (fun kv => String.eqb (fst kv) "text") [("id", JNum 1)]
               then 1 else 0))%Z /\
  body_of 0 s' = [Line "5"] /\ iter s' = GFor 0.
Proof.
  apply (C7_object_count_iff_text_key sample_deserialize 0 0 json_suspended id_line
           [Line "5"] [("id", JNum 1)]);
    [reflexivity|reflexivity|reflexivity|discriminate|reflexivity].
Defined.

(** C7 fails: the line [5] is valid JSON, yet [next()] does not return
    it: [5 in 'text'] raises [TypeError]. *)
Lemma C7_counterexample :
  let s := snd (next sample_deserialize 1 json_suspended) in
  sample_deserialize "5" = Some (JNum 5) /\ raw_mode (cfg s) = false /\
  iter s = GFor 0 /\ body_of 0 s = [Line "5"] /\
  fst (next sample_deserialize 1 s) = RaiseV TypeError.
Proof. vm_compute. repeat split. Qed.

Lemma C1_witness :
  let '(o, s') := next sample_deserialize 1 bad_suspended in
  o = RaiseV (ReconnectImmediatelyError (String.append "Invalid data: " "{bad")) /\
  connected s' = false /\
  (forall fuel', next sample_deserialize fuel' s' = (RaiseV StopIteration, s')) /\
  (forall fuel', exists req,
     sent (world (snd (gen_next sample_deserialize (S fuel') (py_iter s') s'))) =
     req :: sent (world s')).
Proof.
  apply (C1_invalid_line_closes_and_ends sample_deserialize 0 0 bad_suspended "{bad"
           sample_url []);
    [reflexivity|reflexivity|reflexivity|discriminate|reflexivity|reflexivity].
Defined.

(** C1 fails: after the malformed line, the next [next()] raises
    [StopIteration] and issues no request, though a response with a
    record is waiting. *)
Lemma C1_counterexample :
  let s1 := snd (next sample_deserialize 1 bad_suspended) in
  fst (next sample_deserialize 1 bad_suspended) =
    RaiseV (ReconnectImmediatelyError "Invalid data: {bad") /\
  connected s1 = false /\
  net (world s1) = [PostResponse 200 [Line text_line]] /\
  fst (next sample_deserialize 10 s1) = RaiseV StopIteration /\
  length (sent (world (snd (next sample_deserialize 10 s1)))) = 1.
Proof. vm_compute. repeat split. Qed.

Lemma C3_witness :
  let '(o, s') := next sample_deserialize 1 sock_suspended in
  o = RaiseV (ReconnectImmediatelyError
               (String.append "Server disconnected: " "Connection reset by peer")) /\
  connected s' = connected sock_suspended /\ connected sock_suspended = true.
Proof.
  assert (H := C3_socket_error_keeps_connected sample_deserialize 0 0 sock_suspended
                 "Connection reset by peer" [] eq_refl eq_refl).
  destruct (next sample_deserialize 1 sock_suspended) as [o s'].
  destruct H as [H1 H2]. split; [exact H1|split; [exact H2|reflexivity]].
Defined.

Lemma C2_witness :
  fst (next sample_deserialize 1
         (sample_stream false [PostRaises (RequestsConnectionError "Connection refused")])) =
    RaiseV (RequestsConnectionError "Connection refused") /\
  in_taxonomy (RequestsConnectionError "Connection refused") = false.
Proof.
  apply (C2_connection_error_unclassified sample_deserialize 0 _ sample_url
           "Connection refused" []); reflexivity.
Defined.

Definition timed_stream : stream :=
  make_stream "TweetStream" SampleVariant "ck" "cs" "at" "as" None false (Some 5%Q) None
    (sample_env [PostResponse 200 []]).

Lemma C4_witness :
  exists req, sent (world (snd (init_conn timed_stream))) = req :: sent (world timed_stream) /\
              req_timeout req = None.
Proof. apply (C4_timeout_not_passed timed_stream sample_url 5%Q); reflexivity. Defined.

Lemma C5_witness :
  update_rate (sample_stream false []) = (Exc TypeError, sample_stream false []).
Proof. apply C5_update_rate_no_window_fails. reflexivity. Defined.

Lemma C8_witness :
  let s := sample_stream false [PostResponse 401 []] in
  fst (init_conn s) = Exc (AuthenticationError "Could not authenticate with Twitter") /\
  connected (snd (init_conn s)) = false.
Proof.
  exact (proj1 (C8_status_401_404 (sample_stream false [PostResponse 401 []]) sample_url
                  401 [] [] eq_refl eq_refl eq_refl) eq_refl).
Defined.

Lemma C6_witness :
  rate (text_stream 3) = 0%Q /\ rate_cnt (text_stream 3) = count (text_stream 3).
Proof. apply (proj1 (C6_rate_stays_zero sample_deserialize)). apply ReachInit. Defined.

(** * Further properties of the module *)

(** ** [_init_conn] *)

(** Any status other than 401 and 404 (a 500 or 503 included) counts as a
    successful connection: the response is stored, [connected] becomes
    true, and [starttime] and [_rate_ts] are set to the clock only when
    they were not set before. *)
Theorem init_conn_other_status_connects (s : stream) (u : string) (st : Z)
    (body : list event) (more : list post_outcome) :
  url (cfg s) = Some u -> net (world s) = PostResponse st body :: more ->
  st <> 401%Z -> st <> 404%Z ->
  let '(o, s') := init_conn s in
  o = Ok tt /\ connected s' = true /\
  response s' = Some (mkResp st (next_rid (world s))) /\
  starttime s' = (if truthy_time (starttime s) then starttime s
                  else Some (clock (world s))) /\
  rate_ts s' = (if truthy_time (rate_ts s) then rate_ts s
                else Some (clock (world s))) /\
  body_of (next_rid (world s)) s' = body.
Proof.
  intros Hu Hn H401 H404. unfold init_conn. rewrite Hu. unfold post. rewrite Hn.
  simpl. apply Z.eqb_neq in H401, H404. rewrite H401, H404.
  repeat split; unfold body_of; simpl; by rewrite ?lookup_insert_eq.
Qed.

Lemma init_conn_other_status_connects_witness :
  let '(o, s') := init_conn (sample_stream false [PostResponse 503 []]) in
  o = Ok tt /\ connected s' = true /\
  response s' = Some (mkResp 503 0) /\
  starttime s' = Some 100%Q /\ rate_ts s' = Some 100%Q /\ body_of 0 s' = [].
Proof.
  apply (init_conn_other_status_connects (sample_stream false [PostResponse 503 []])
           sample_url 503 [] []); [reflexivity|reflexivity|discriminate|discriminate].
Defined.

(** [starttime] is set once: whatever the outcome of a reconnection, a
    start time already recorded is kept. *)
Theorem init_conn_keeps_starttime (s : stream) :
  truthy_time (starttime s) = true ->
  starttime (snd (init_conn s)) = starttime s.
Proof.
  intros Ht. unfold init_conn. destruct (url (cfg s)) as [u|]; [|reflexivity].
  unfold post. destruct (net (world s)) as [|[st body|e] more]; simpl.
  - reflexivity.
  - destruct (Z.eqb st 401); [reflexivity|].
    destruct (Z.eqb st 404); [reflexivity|]. simpl. by rewrite Ht.
  - destruct (is_http_error e); reflexivity.
Qed.

Lemma init_conn_keeps_starttime_witness :
  let s := set_times (Some 7%Q) None (sample_stream false [PostResponse 200 []]) in
  starttime (snd (init_conn s)) = Some 7%Q.
Proof.
  exact (init_conn_keeps_starttime
           (set_times (Some 7%Q) None (sample_stream false [PostResponse 200 []])) eq_refl).
Defined.

(** An [HTTPError] raised by [requests.post] becomes
    [ReconnectExponentiallyError] carrying [str(x)]; the object stays as
    connected as it was and keeps its old response. *)
Theorem init_conn_http_error (s : stream) (u m : string) (more : list post_outcome) :
  url (cfg s) = Some u -> net (world s) = PostRaises (HTTPError m) :: more ->
  fst (init_conn s) = Exc (ReconnectExponentiallyError m) /\
  connected (snd (init_conn s)) = connected s /\
  response (snd (init_conn s)) = response s.
Proof.
  intros Hu Hn. unfold init_conn. rewrite Hu. unfold post. rewrite Hn.
  repeat split.
Qed.

Lemma init_conn_http_error_witness :
  let s := sample_stream false [PostRaises (HTTPError "500 Server Error")] in
  fst (init_conn s) = Exc (ReconnectExponentiallyError "500 Server Error") /\
  connected (snd (init_conn s)) = connected s /\
  response (snd (init_conn s)) = response s.
Proof.
  exact (init_conn_http_error (sample_stream false [PostRaises (HTTPError "500 Server Error")])
           sample_url "500 Server Error" [] eq_refl eq_refl).
Defined.

(** The request [_init_conn] issues goes to the object's URL with
    [stream=True] and the variant's payload as [data] ([None] for the
    Sample, User and base streams). *)
Theorem init_conn_request_fields (s : stream) (u : string) :
  url (cfg s) = Some u ->
  exists req, sent (world (snd (init_conn s))) = req :: sent (world s) /\
              req_url req = u /\ req_stream req = true /\
              req_data req = get_post_data (kind (cfg s)).
Proof.
  intros Hu. rewrite (init_conn_sent_request s u Hu). eexists; repeat split.
Qed.

Lemma init_conn_request_fields_witness :
  exists req, sent (world (snd (init_conn (sample_stream false [])))) =
                req :: sent (world (sample_stream false [])) /\
              req_url req = sample_url /\ req_stream req = true /\
              req_data req = get_post_data (kind (cfg (sample_stream false []))).
Proof. exact (init_conn_request_fields (sample_stream false []) sample_url eq_refl). Defined.

(** ** [_update_rate] *)

(** After a window longer than a non-negative [rate_period],
    [_update_rate] sets [rate] to [_rate_cnt] divided by the elapsed time,
    empties the window and starts a new one now. *)
Theorem update_rate_new_window (s : stream) (ts : Q) :
  rate_ts s = Some ts -> ~ (ts == 0)%Q -> (0 <= rate_period (cfg s))%Q ->
  (rate_period (cfg s) < clock (world s) - ts)%Q ->
  update_rate s =
    (Ok tt, set_rate (inject_Z (rate_cnt s) / (clock (world s) - ts))%Q 0%Z
                     (Some (clock (world s))) s).
Proof.
  intros Hts Hnz Hp Hlt. unfold update_rate. rewrite Hts. simpl.
  assert (Hq : Qeq_bool ts 0 = false)
    by (apply not_true_iff_false; rewrite Qeq_bool_iff; exact Hnz).
  rewrite Hq. simpl.
  assert (Hle : Qle_bool (clock (world s) - ts) (rate_period (cfg s)) = false).
  { apply not_true_iff_false. rewrite Qle_bool_iff. apply Qlt_not_le. exact Hlt. }
  rewrite Hle. simpl.
  assert (Hz : Qeq_bool (clock (world s) - ts) 0 = false).
  { apply not_true_iff_false. rewrite Qeq_bool_iff. intros E.
    rewrite E in Hlt. exact (Qlt_not_le _ _ Hlt Hp). }
  rewrite Hz. reflexivity.
Qed.

Lemma update_rate_new_window_witness :
  let s := set_rate 0 4 (Some 80%Q) (sample_stream false []) in
  update_rate s = (Ok tt, set_rate (inject_Z 4 / (100 - 80))%Q 0%Z (Some 100%Q) s).
Proof.
  apply (update_rate_new_window (set_rate 0 4 (Some 80%Q) (sample_stream false [])) 80);
    [reflexivity|discriminate|discriminate|reflexivity].
Defined.

(** Within the window ([clock - _rate_ts <= rate_period], window start
    recorded and non-zero), [_update_rate] changes nothing: [rate] keeps
    the value of the previous window. *)
Theorem update_rate_within_window (s : stream) (ts : Q) :
  rate_ts s = Some ts -> ~ (ts == 0)%Q ->
  (clock (world s) - ts <= rate_period (cfg s))%Q ->
  update_rate s = (Ok tt, s).
Proof.
  intros Hts Hnz Hle. unfold update_rate. rewrite Hts. simpl.
  assert (Hq : Qeq_bool ts 0 = false)
    by (apply not_true_iff_false; rewrite Qeq_bool_iff; exact Hnz).
  rewrite Hq. simpl.
  assert (Hb : Qle_bool (clock (world s) - ts) (rate_period (cfg s)) = true)
    by (apply Qle_bool_iff; exact Hle).
  by rewrite Hb.
Qed.

Lemma update_rate_within_window_witness :
  update_rate (set_rate 3 4 (Some 95%Q) (sample_stream false [])) =
    (Ok tt, set_rate 3 4 (Some 95%Q) (sample_stream false [])).
Proof.
  apply (update_rate_within_window _ 95); [reflexivity|discriminate|discriminate].
Defined.

(** ** The generator loop *)

(** Keep-alive lines are skipped: a pull over [k] empty lines followed by
    the rest of the body gives what a pull over that rest gives (the
    empty lines cost one loop turn each), so empty lines are never
    yielded or counted. *)
Theorem next_skips_empty_lines (deserialize : string -> option json)
    (i f k : nat) (s : stream) (rest : list event) :
  iter s = GFor i ->
  bodies (world s) !! i = Some (repeat (Line "") k ++ rest)%list ->
  next deserialize (k + f) s = next deserialize f (set_body i rest s).
Proof.
  intros Hit Hb. rewrite (next_GFor _ _ _ _ Hit).
  rewrite (next_GFor deserialize f i (set_body i rest s)) by exact Hit.
  by rewrite (resume_skip_empty deserialize i f k s rest Hb).
Qed.

Lemma next_skips_empty_lines_witness :
  next sample_deserialize (2 + 1) (set_body 0 [Line ""; Line ""; Line "x"] raw_suspended) =
  next sample_deserialize 1 (set_body 0 [Line "x"]
                               (set_body 0 [Line ""; Line ""; Line "x"] raw_suspended)).
Proof.
  apply (next_skips_empty_lines sample_deserialize 0 1 2
           (set_body 0 [Line ""; Line ""; Line "x"] raw_suspended) [Line "x"]);
    reflexivity.
Defined.

(** [close()] does not interrupt a paused generator: the next pull over a
    non-empty line gives the same result as without the [close()], sends
    no request, and [connected] stays false. *)
Theorem close_does_not_interrupt (deserialize : string -> option json)
    (f i : nat) (s : stream) (l : string) (rest : list event) :
  iter s = GFor i -> body_of i s = Line l :: rest -> l <> "" ->
  fst (next deserialize (S f) (close s)) = fst (next deserialize (S f) s) /\
  connected (snd (next deserialize (S f) (close s))) = false /\
  sent (world (snd (next deserialize (S f) (close s)))) = sent (world s).
Proof.
  intros Hit Hb Hl.
  assert (Hit' : iter (close s) = GFor i) by exact Hit.
  assert (Hb' : body_of i (close s) = Line l :: rest) by exact Hb.
  rewrite (next_GFor _ _ _ _ Hit'), (next_GFor _ _ _ _ Hit).
  rewrite (resume_line _ _ _ _ _ _ Hb' Hl), (resume_line _ _ _ _ _ _ Hb Hl).
  unfold decode_line. simpl.
  destruct (raw_mode (cfg s)); simpl.
  - destruct (str_in "text" l); repeat split.
  - destruct (deserialize l) as [j|]; simpl; [|repeat split].
    destruct (py_in_json "text" j) as [[]|]; repeat split.
Qed.

Lemma close_does_not_interrupt_witness :
  fst (next sample_deserialize 1 (close raw_suspended)) =
    fst (next sample_deserialize 1 raw_suspended) /\
  connected (snd (next sample_deserialize 1 (close raw_suspended))) = false /\
  sent (world (snd (next sample_deserialize 1 (close raw_suspended)))) =
    sent (world raw_suspended).
Proof.
  apply (close_does_not_interrupt sample_deserialize 0 0 raw_suspended "some text" []);
    [reflexivity|reflexivity|discriminate].
Defined.



(** After [close()], once the current body is exhausted the same
    generator reconnects: the pull issues exactly the request of
    [_init_conn] (to the object's URL, with its payload). *)
Theorem next_reconnects_after_close (deserialize : string -> option json)
    (s : stream) (i f : nat) (u : string) :
  iter s = GFor i -> body_of i s = [] -> url (cfg s) = Some u ->
  sent (world (snd (next deserialize (S (S f)) (close s)))) =
    mkRequest u true (get_post_data (kind (cfg s))) None :: sent (world s).
Proof.
  intros Hit Hb Hu.
  assert (Hit' : iter (close s) = GFor i) by exact Hit.
  rewrite (next_GFor _ _ _ _ Hit').
  assert (E : resume deserialize (S (S f)) (InFor i) (close s) =
              gen_next deserialize (S f) GNew (close s)).
  { simpl. change (body_of i (close s)) with (body_of i s). by rewrite Hb. }
  rewrite E.
  pose proof (fresh_gen_sent deserialize f (close s) eq_refl) as Hs.
  destruct (gen_next deserialize (S f) GNew (close s)) as [[o g] s1]. simpl in *.
  rewrite Hs. exact (init_conn_sent_request (close s) u Hu).
Qed.

Lemma next_reconnects_after_close_witness :
  sent (world (snd (next sample_deserialize 3 (close (set_body 0 [] raw_suspended))))) =
    mkRequest sample_url true None None :: sent (world raw_suspended).
Proof.
  exact (next_reconnects_after_close sample_deserialize (set_body 0 [] raw_suspended)
           0 1 sample_url eq_refl eq_refl eq_refl).
Defined.

(** A [FilterStream] built without [url] sends, on its first [next()],
    one request to the filter endpoint carrying the payload built from
    [follow], [locations] and [track], and no [timeout]. *)
Theorem filter_first_next_request (deserialize : string -> option json)
    (ua ck cs at_ as_ : string) (c : option Z) (raw : bool) (t : option Q)
    (follow : option (list pyval)) (locations track : option (list string))
    (w : env) (f : nat) :
  let s := make_stream ua (FilterVariant follow locations track) ck cs at_ as_ c raw t None w in
  sent (world (snd (next deserialize (S f) s))) =
    mkRequest "https://stream.twitter.com/1.1/statuses/filter.json" true
      (Some (filter_post_data follow locations track)) None :: sent w.
Proof.
  intros s. unfold next.
  assert (Hs := fresh_gen_sent deserialize f s eq_refl).
  change (iter s) with GNew.
  destruct (gen_next deserialize (S f) GNew s) as [[o g] s1]. simpl in *.
  rewrite Hs. exact (init_conn_sent_request s _ eq_refl).
Qed.

(** [BaseStream] has no class attribute [url]: built without one, its
    first [next()] raises [AttributeError] (none of the four kinds),
    issues no request and finishes the generator. *)
Theorem base_stream_without_url (deserialize : string -> option json)
    (ua ck cs at_ as_ : string) (c : option Z) (raw : bool) (t : option Q)
    (w : env) (f : nat) :
  let s := make_stream ua BaseVariant ck cs at_ as_ c raw t None w in
  next deserialize (S f) s = (RaiseV AttributeError, set_iter GDone s) /\
  in_taxonomy AttributeError = false.
Proof. split; reflexivity. Qed.

(** A non-empty line that decodes to a JSON number, boolean or [null]
    makes [text in tweet] raise [TypeError]: the line is consumed, the
    counters and [connected] are unchanged, and the generator is
    finished. *)
Theorem next_scalar_json_type_error (deserialize : string -> option json)
    (fuel i : nat) (s : stream) (l : string) (rest : list event) (j : json) :
  raw_mode (cfg s) = false -> iter s = GFor i ->
  body_of i s = Line l :: rest -> l <> "" ->
  deserialize l = Some j -> py_in_json "text" j = None ->
  let '(o, s') := next deserialize (S fuel) s in
  o = RaiseV TypeError /\ iter s' = GDone /\ count s' = count s /\
  rate_cnt s' = rate_cnt s /\ connected s' = connected s /\ body_of i s' = rest.
Proof.
  intros Hraw Hit Hb Hl Hd Hj. rewrite (next_GFor _ _ _ _ Hit).
  rewrite (resume_line _ _ _ _ _ _ Hb Hl). unfold decode_line. simpl.
  rewrite Hraw, Hd. simpl. rewrite Hj. simpl.
  repeat split. unfold body_of. simpl. by rewrite lookup_insert_eq.
Qed.

Lemma next_scalar_json_type_error_witness :
  let s := snd (next sample_deserialize 1 json_suspended) in
  let '(o, s') := next sample_deserialize 1 s in
  o = RaiseV TypeError /\ iter s' = GDone /\ count s' = count s /\
  rate_cnt s' = rate_cnt s /\ connected s' = connected s /\ body_of 0 s' = [].
Proof.
  apply (next_scalar_json_type_error sample_deserialize 0 0
           (snd (next sample_deserialize 1 json_suspended)) "5" [] (JNum 5));
    [reflexivity|reflexivity|reflexivity|discriminate|reflexivity|reflexivity].
Defined.

(** ** The [with] statement *)

(** [with stream as x: body]: [__enter__] returns the object, the body
    runs, and [__exit__] runs whether the body returned or raised; its
    [False] result lets an exception propagate. *)
Definition with_stream {A : Type} (body : stream -> result A * stream) (s : stream)
    : result (option A) * stream :=
  let '(x, s0) := enter s in
  let '(o, s1) := body x in
  let '(suppress, s2) := exit s1 in
  match o with
  | Exc e => if suppress then (Ok None, s2) else (Exc e, s2)
  | Ok a => (Ok (Some a), s2)
  end.

(** Whatever the body does, leaving the [with] block leaves the object
    closed, passes the body's result or exception through unchanged (the
    exception is not suppressed), and keeps what the body did to the
    counters and the generator. *)
Theorem with_stream_closes {A : Type} (body : stream -> result A * stream) (s : stream) :
  fst (with_stream body s) =
    match fst (body s) with Ok a => Ok (Some a) | Exc e => Exc e end /\
  connected (snd (with_stream body s)) = false /\
  count (snd (with_stream body s)) = count (snd (body s)) /\
  iter (snd (with_stream body s)) = iter (snd (body s)).
Proof.
  unfold with_stream. simpl. destruct (body s) as [[a|e] s1]; repeat split.
Qed.
